(** * gittip.billing: card association, revocation and the card view

    A shallow embedding of [gittip/billing/__init__.py].  The module talks
    to two collaborators: the participants table (through [db.execute]) and
    the Balanced payment gateway (through the [balanced] client).  Both are
    threaded through an explicit world; every call that leaves the process is
    recorded, in program order, in a trace. *)

From Stdlib Require Import ZArith Lia.
From stdpp Require Import gmap strings list fin_maps pretty.

Open Scope string_scope.
Open Scope Z_scope.

(** ** Python values *)

(** The values that flow through the module: [None], booleans, integers and
    unicode strings (the file is under [unicode_literals]); [VObject] is an
    object of any other type (a bound method, a dict, ...), known by its
    [repr] and by whether it counts as true. *)
Inductive pyval :=
| VNone
| VBool (b : bool)
| VInt (z : Z)
| VUnicode (s : string)
| VObject (repr : string) (truth : bool).

#[global] Instance pyval_eq_dec : EqDecision pyval.
Proof. solve_decision. Defined.

(** Python truthiness, as tested by [if out:] and [if month and year:]. *)
Definition truthy (v : pyval) : bool :=
  match v with
  | VNone => false
  | VBool b => b
  | VInt z => negb (z =? 0)
  | VUnicode s => negb (String.eqb s "")
  | VObject _ truth => truth
  end.

Definition is_none (v : pyval) : bool :=
  match v with VNone => true | _ => false end.

(** [unicode(v)], as computed by ['{}'.format(v)]. *)
Definition py_unicode (v : pyval) : string :=
  match v with
  | VNone => "None"
  | VBool b => if b then "True" else "False"
  | VInt z => pretty z
  | VUnicode s => s
  | VObject r _ => r
  end.

(** ** Exceptions *)

Inductive exn :=
| TypeError
| IndexError
| AttributeError
| UnicodeEncodeError
| NoResultFound                 (* balanced.exc.NoResultFound *)
| MultipleResultsFound          (* balanced.exc.MultipleResultsFound *)
| HTTPError (message : pyval)   (* balanced.exc.HTTPError, with err.message *)
| TransportError (what : string). (* connection, timeout, auth plumbing *)

#[global] Instance exn_eq_dec : EqDecision exn.
Proof. solve_decision. Defined.

Definition result (A : Type) : Type := (exn + A)%type.

Definition is_HTTPError (e : exn) : bool :=
  match e with HTTPError _ => true | _ => false end.

(** ** Gateway objects *)

(** What the gateway returns for an account. *)
Record resource := {
  res_uri : string;
  res_email_address : string;
  res_meta : gmap string pyval
}.

(** The client-side [balanced.Account] object: the resource data plus the
    write-only [card_uri] attribute set on line 70. *)
Record account := {
  uri : string;
  email_address : string;
  meta : gmap string pyval;
  card_uri : pyval
}.

Definition load (r : resource) : account :=
  {| uri := res_uri r; email_address := res_email_address r;
     meta := res_meta r; card_uri := VNone |}.

Definition set_meta (k : string) (v : pyval) (a : account) : account :=
  {| uri := uri a; email_address := email_address a;
     meta := <[k := v]> (meta a); card_uri := card_uri a |}.

Definition set_card_uri (v : pyval) (a : account) : account :=
  {| uri := uri a; email_address := email_address a;
     meta := meta a; card_uri := v |}.

(** A card of an account.  [created_at] is a timestamp; the remaining
    attributes ([last_four], [expiration_month], ...) live in [attrs]. *)
Record card := {
  card_id : string;
  created_at : Z;
  is_valid : bool;
  attrs : gmap string pyval
}.

Definition set_is_valid (b : bool) (c : card) : card :=
  {| card_id := card_id c; created_at := created_at c;
     is_valid := b; attrs := attrs c |}.

(** Whether a unicode can be encoded as an ASCII byte string. *)
Fixpoint is_ascii (s : string) : bool :=
  match s with
  | EmptyString => true
  | String (Ascii.Ascii _ _ _ _ _ _ _ b7) rest => negb b7 && is_ascii rest
  end.

(** ** The participants table *)

Record participant := {
  balanced_account_uri : option string;
  last_bill_result : option string
}.

#[global] Instance participant_eq_dec : EqDecision participant.
Proof. solve_decision. Defined.

(** The three statements the module issues, with their parameters. *)
Inductive statement :=
| CUSTOMER (account_uri : pyval) (participant_id : pyval)
| STANDING (bill_result : pyval) (participant_id : pyval)
| CLEAR (participant_id : pyval).

(** A Python parameter as a nullable text column / text key. *)
Definition sql_text (v : pyval) : option string :=
  match v with
  | VNone => None
  | v => Some (py_unicode v)
  end.

Definition set_account_uri (u : option string) (p : participant) : participant :=
  {| balanced_account_uri := u; last_bill_result := last_bill_result p |}.

Definition set_bill_result (r : option string) (p : participant) : participant :=
  {| balanced_account_uri := balanced_account_uri p; last_bill_result := r |}.

Definition reset (p : participant) : participant :=
  {| balanced_account_uri := None; last_bill_result := None |}.

(** [UPDATE participants SET ... WHERE id=%s]: the row whose key equals the
    parameter is rewritten; [id = NULL] selects nothing. *)
Definition update_where (id : pyval) (f : participant → participant)
    (t : gmap string participant) : gmap string participant :=
  match sql_text id with
  | Some k => alter f k t
  | None => t
  end.

(** Modelled from the spec: [gittip.db.execute] is not under src/; section 6
    of the design lists the three parameterised updates, keyed by
    participant id, and they are applied here to a table of rows. *)
Definition db_execute (q : statement) (t : gmap string participant)
    : gmap string participant :=
  match q with
  | CUSTOMER u id => update_where id (set_account_uri (sql_text u)) t
  | STANDING r id => update_where id (set_bill_result (sql_text r)) t
  | CLEAR id => update_where id reset t
  end.

(** ** The gateway interface *)

(** Everything that leaves the process. *)
Inductive event :=
| QueryOne (email : string)   (* Account.query.filter(email_address=..).one() *)
| Create (email : string)     (* Account(email_address=..).save() *)
| Save (a : account)          (* customer.save() *)
| Find (u : pyval)            (* Account.find(uri) *)
| Cards (a : account)         (* customer.cards *)
| CardSave (c : card)         (* card.save() *)
| Execute (q : statement).    (* db.execute(..) *)

(** The [balanced] client, as the module uses it.  Each call may change the
    gateway and either raises or returns.  Nothing is assumed of an
    implementation: the theorems that quantify over [Gateway] hold for a
    gateway that declines, times out or answers arbitrarily. *)
Class Gateway (G : Type) := {
  gw_query_one : string → G → result resource * G;
  gw_create : string → G → result resource * G;
  gw_save : account → G → result resource * G;
  gw_find : pyval → G → result resource * G;
  gw_cards : account → G → result (list card) * G;
  gw_card_save : card → G → result card * G;
  (* attribute lookup on a card object of the client: the value, or what
     the lookup raises ([AttributeError] when there is no such attribute) *)
  gw_getattr : card → string → result pyval
}.

(** ** Worlds and the effect monad *)

(** A trace entry: the call and, when it raised, the exception. *)
Definition entry : Type := event * option exn.

Definition status {A} (r : result A) : option exn :=
  match r with inl e => Some e | inr _ => None end.

(** The table, the gateway and the calls made so far, oldest first. *)
Record world (G : Type) := World {
  db : gmap string participant;
  gw : G;
  trace : list entry
}.
Arguments World {G} _ _ _.
Arguments db {G} _.
Arguments gw {G} _.
Arguments trace {G} _.

(** A computation runs in a world and either raises or returns; the world
    it leaves behind is kept in both cases, as in Python. *)
Definition M (G A : Type) : Type := world G → result A * world G.

#[global] Instance M_ret {G} : MRet (M G) := λ A x w, (inr x, w).

#[global] Instance M_bind {G} : MBind (M G) :=
  λ A B k m w,
    match m w with
    | (inl e, w') => (inl e, w')
    | (inr x, w') => k x w'
    end.

Definition raise {G A} (e : exn) : M G A := λ w, (inl e, w).

(** [try: m  except <h matches> as err: ...  else: el]. *)
Definition try_except_else {G A B} (m : M G A) (h : exn → option (M G B))
    (el : A → M G B) : M G B :=
  λ w, match m w with
       | (inl e, w') =>
           match h e with
           | Some k => k w'
           | None => (inl e, w')
           end
       | (inr x, w') => el x w'
       end.

(** A gateway call: answered by the gateway, and recorded with its outcome. *)
Definition call {G A} (e : event) (op : G → result A * G) : M G A :=
  λ w, let '(r, g) := op (gw w) in
       (r, World (db w) g (trace w ++ [(e, status r)])).

(** [db.execute(q)]. *)
Definition execute {G} (q : statement) : M G unit :=
  λ w, (inr tt, World (db_execute q (db w)) (gw w)
                      (trace w ++ [(Execute q, None)])).

(** ** typecheck *)

Inductive pytype := unicode | NoneType.

Definition isinstance (v : pyval) (t : pytype) : bool :=
  match v, t with
  | VUnicode _, unicode => true
  | VNone, NoneType => true
  | _, _ => false
  end.

(** [aspen.utils.typecheck]: value/type pairs checked left to right, a
    tuple of types accepting any of its members; the first mismatch raises
    [TypeError]. *)
Fixpoint typecheck {G} (checks : list (pyval * list pytype)) : M G unit :=
  match checks with
  | [] => mret tt
  | (v, ts) :: rest =>
      if existsb (isinstance v) ts then typecheck rest else raise TypeError
  end.

(** ** associate and clear *)

(** [for x in xs: body]. *)
Fixpoint for_each {G A} (xs : list A) (body : A → M G unit) : M G unit :=
  match xs with
  | [] => mret tt
  | x :: rest => body x;; for_each rest body
  end.

Section Billing.
Context {G : Type} `{!Gateway G}.

Definition associate (participant_id balanced_account_uri card_uri : pyval)
    : M G pyval :=
  typecheck [ (participant_id, [unicode])
            ; (balanced_account_uri, [unicode; NoneType])
            ; (card_uri, [unicode]) ];;
  (* Load or create a Balanced Account. *)
  let email_address := py_unicode participant_id +:+ "@gittip.com" in
  customer ←
    (if is_none balanced_account_uri then
       customer ← try_except_else
         (call (QueryOne email_address) (gw_query_one email_address))
         (λ e, match e with
               | NoResultFound =>
                   Some (call (Create email_address) (gw_create email_address))
               | _ => None
               end)
         mret;
       let customer := load customer in
       execute (CUSTOMER (VUnicode (uri customer)) participant_id);;
       let customer := set_meta "participant_id" participant_id customer in
       saved ← call (Save customer) (gw_save customer);
       mret (load saved)
     else
       found ← call (Find balanced_account_uri) (gw_find balanced_account_uri);
       mret (load found));
  (* Associate the card with the customer. *)
  let customer := set_card_uri card_uri customer in
  '(out, last_bill_result) ← try_except_else
    (call (Save customer) (gw_save customer))
    (λ e, match e with
          | HTTPError message =>
              Some (let last_bill_result := message in
                    typecheck [(last_bill_result, [unicode])];;
                    mret (message, last_bill_result))
          | _ => None
          end)
    (λ _, mret (VUnicode "", VUnicode ""));
  execute (STANDING last_bill_result participant_id);;
  mret out.

Definition clear (participant_id balanced_account_uri : pyval) : M G unit :=
  typecheck [ (participant_id, [unicode]); (balanced_account_uri, [unicode]) ];;
  found ← call (Find balanced_account_uri) (gw_find balanced_account_uri);
  let customer := load found in
  cards ← call (Cards customer) (gw_cards customer);
  for_each cards (λ card,
    if is_valid card then
      let card := set_is_valid false card in
      call (CardSave card) (gw_card_save card);; mret tt
    else mret tt);;
  execute (CLEAR participant_id).
End Billing.

(** ** Account: the dict-like card view *)

(** [sorted(cards, key=lambda c: c.created_at)]: ascending and stable, so a
    card goes in front of the cards of equal key that followed it. *)
Fixpoint insert_by_created_at (c : card) (l : list card) : list card :=
  match l with
  | [] => [c]
  | d :: rest =>
      if created_at c <=? created_at d then c :: d :: rest
      else d :: insert_by_created_at c rest
  end.

Fixpoint sorted (cards : list card) : list card :=
  match cards with
  | [] => []
  | c :: rest => insert_by_created_at c (sorted rest)
  end.

(** [cards[0]]. *)
Definition first_item {G} (cards : list card) : M G card :=
  match cards with
  | [] => raise IndexError
  | c :: _ => mret c
  end.

(** [u"..." + v]. *)
Definition py_add {G} (s : string) (v : pyval) : M G pyval :=
  match v with
  | VUnicode t => mret (VUnicode (s +:+ t))
  | _ => raise TypeError
  end.

(** One ["%d"] conversion: numbers only. *)
Definition percent_d (v : pyval) : option string :=
  match v with
  | VInt z => Some (pretty z)
  | VBool b => Some (if b then "1" else "0")
  | _ => None
  end.

(** ["%d/%d" % (month, year)]. *)
Definition format_expiry {G} (month year : pyval) : M G pyval :=
  match percent_d month, percent_d year with
  | Some m, Some y => mret (VUnicode (m +:+ "/" +:+ y))
  | _, _ => raise TypeError
  end.

(** [getattr(card, name)] under Python 2: a unicode name is first encoded
    to ASCII, then the object is asked. *)
Definition lookup {G} `{!Gateway G} (c : card) (name : string) : result pyval :=
  if is_ascii name then gw_getattr c name else inl UnicodeEncodeError.

(** [getattr(card, name, default)]: the default stands in for
    [AttributeError], and for nothing else. *)
Definition getattr {G} `{!Gateway G} (c : card) (name : string)
    (default : pyval) : M G pyval :=
  match lookup c name with
  | inr v => mret v
  | inl AttributeError => mret default
  | inl e => raise e
  end.

Module Account.
Record t := { _account : option account }.

Section Methods.
Context {G : Type} `{!Gateway G}.

Definition __init__ (balanced_account_uri : pyval) : M G t :=
  if negb (is_none balanced_account_uri) then
    found ← call (Find balanced_account_uri) (gw_find balanced_account_uri);
    mret {| _account := Some (load found) |}
  else mret {| _account := None |}.

Definition _get (self : t) (name : string) : M G pyval :=
  let out := VUnicode "" in
  match _account self with
  | Some acct =>
      out ← try_except_else
        (cards ← call (Cards acct) (gw_cards acct);
         let cards := sorted cards in
         let cards := rev cards in
         card ← first_item cards;
         getattr card name out)
        (λ e, match e with
              | IndexError => Some (mret out)   (* no cards associated *)
              | _ => None
              end)
        mret;
      mret (if is_none out then VUnicode "" else out)
  | None => mret out
  end.

Definition __getitem__ (self : t) (name : string) : M G pyval :=
  if String.eqb name "id" then
    mret (match _account self with
          | Some acct => VUnicode (uri acct)
          | None => VNone
          end)
  else if String.eqb name "last4" then
    out ← _get self "last_four";
    if truthy out then py_add "************" out else mret out
  else if String.eqb name "expiry" then
    month ← _get self "expiration_month";
    year ← _get self "expiration_year";
    if truthy month && truthy year then format_expiry month year
    else mret (VUnicode "")
  else _get self name.
End Methods.
End Account.

(** ** An in-memory gateway *)

(** Modelled from the spec: the [balanced] client and the service behind it
    are not under src/.  Section 6 of the design lists the gateway calls
    (find by identity key, create, find by reference, attach a card token,
    list cards, save a card); this is a gateway that keeps accounts and cards
    in memory and answers those calls.  [faults] scripts the answers of the
    coming calls, so that declines and outages can be played. *)
Module Mem.
Record t := {
  accounts : list resource;
  cards : list (string * card);   (* owner's uri, card; listing order *)
  tokens : gmap string card;      (* tokenised cards, not yet attached *)
  faults : list (option exn)      (* [Some e]: that call raises [e] *)
}.

Definition with_faults (fs : list (option exn)) (g : t) : t :=
  {| accounts := accounts g; cards := cards g; tokens := tokens g;
     faults := fs |}.

Definition with_cards (cs : list (string * card)) (g : t) : t :=
  {| accounts := accounts g; cards := cs; tokens := tokens g;
     faults := faults g |}.

Definition scripted {A} (op : t → result A * t) (g : t) : result A * t :=
  match faults g with
  | Some e :: rest => (inl e, with_faults rest g)
  | None :: rest => op (with_faults rest g)
  | [] => op g
  end.

Definition has_uri (u : string) (r : resource) : bool := String.eqb (res_uri r) u.
Definition has_email (e : string) (r : resource) : bool :=
  String.eqb (res_email_address r) e.
Definition owned_by (u : string) (oc : string * card) : bool := String.eqb oc.1 u.
Definition same_card (c : card) (oc : string * card) : bool :=
  String.eqb (card_id oc.2) (card_id c).

Definition query_one (email : string) (g : t) : result resource * t :=
  match List.filter (has_email email) (accounts g) with
  | [] => (inl NoResultFound, g)
  | [r] => (inr r, g)
  | _ => (inl MultipleResultsFound, g)
  end.

Definition create (email : string) (g : t) : result resource * t :=
  if existsb (has_email email) (accounts g) then
    (inl (HTTPError (VUnicode "account-already-exists")), g)
  else
    let r := {| res_uri := "/v1/accounts/" +:+ pretty (length (accounts g));
                res_email_address := email; res_meta := ∅ |} in
    (inr r, {| accounts := accounts g ++ [r]; cards := cards g;
               tokens := tokens g; faults := faults g |}).

Definition put (a : account) (r : resource) : resource :=
  if has_uri (uri a) r then
    {| res_uri := res_uri r; res_email_address := email_address a;
       res_meta := meta a |}
  else r.

Definition save (a : account) (g : t) : result resource * t :=
  match List.find (has_uri (uri a)) (accounts g) with
  | None => (inl (HTTPError (VUnicode "not-found")), g)
  | Some r =>
      match card_uri a with
      | VNone =>
          (inr (put a r), {| accounts := map (put a) (accounts g);
                             cards := cards g; tokens := tokens g;
                             faults := faults g |})
      | VUnicode tok =>
          match tokens g !! tok with
          | Some c =>
              (inr (put a r), {| accounts := map (put a) (accounts g);
                                 cards := cards g ++ [(uri a, c)];
                                 tokens := delete tok (tokens g);
                                 faults := faults g |})
          | None => (inl (HTTPError (VUnicode "card-not-found")), g)
          end
      | _ => (inl (HTTPError (VUnicode "bad-request")), g)
      end
  end.

Definition find (u : pyval) (g : t) : result resource * t :=
  match u with
  | VUnicode s =>
      match List.find (has_uri s) (accounts g) with
      | Some r => (inr r, g)
      | None => (inl (HTTPError (VUnicode "not-found")), g)
      end
  | _ => (inl (HTTPError (VUnicode "bad-request")), g)
  end.

Definition list_cards (a : account) (g : t) : result (list card) * t :=
  (inr (map snd (List.filter (owned_by (uri a)) (cards g))), g).

Definition replace_card (c : card) (oc : string * card) : string * card :=
  if same_card c oc then (oc.1, c) else oc.

Definition card_save (c : card) (g : t) : result card * t :=
  if existsb (same_card c) (cards g) then
    (inr c, with_cards (map (replace_card c) (cards g)) g)
  else (inl (HTTPError (VUnicode "not-found")), g).

(** The attributes of a card object: its fields, its [save] method, and
    what the gateway sent along. *)
Definition card_getattr (c : card) (name : string) : result pyval :=
  if String.eqb name "uri" then inr (VUnicode (card_id c))
  else if String.eqb name "created_at" then inr (VInt (created_at c))
  else if String.eqb name "is_valid" then inr (VBool (is_valid c))
  else if String.eqb name "save" then inr (VObject "<bound method Card.save>" true)
  else match attrs c !! name with
       | Some v => inr v
       | None => inl AttributeError
       end.

#[global] Instance gateway : Gateway t := {|
  gw_query_one e := scripted (query_one e);
  gw_create e := scripted (create e);
  gw_save a := scripted (save a);
  gw_find u := scripted (find u);
  gw_cards a := scripted (list_cards a);
  gw_card_save c := scripted (card_save c);
  gw_getattr := card_getattr
|}.
End Mem.

(** ** Reading a trace *)

Definition is_account_ref_write (x : entry) : bool :=
  match x.1 with Execute (CUSTOMER _ _) => true | _ => false end.

Definition is_bill_result_write (x : entry) : bool :=
  match x.1 with Execute (STANDING _ _) => true | _ => false end.

Definition is_reset_write (x : entry) : bool :=
  match x.1 with Execute (CLEAR _) => true | _ => false end.

Definition is_store_write (x : entry) : bool :=
  match x.1 with Execute _ => true | _ => false end.

(** The save of line 72: the one that carries a card token. *)
Definition is_card_attach (x : entry) : bool :=
  match x.1 with Save a => negb (is_none (card_uri a)) | _ => false end.

Definition is_card_save (x : entry) : bool :=
  match x.1 with CardSave _ => true | _ => false end.

Definition is_find (x : entry) : bool :=
  match x.1 with Find _ => true | _ => false end.

Definition count (p : entry → bool) (t : list entry) : nat :=
  length (List.filter p t).

(** The entries before, and after, the first one that satisfies [p]. *)
Fixpoint before (p : entry → bool) (t : list entry) : list entry :=
  match t with
  | [] => []
  | x :: rest => if p x then [] else x :: before p rest
  end.

Fixpoint after (p : entry → bool) (t : list entry) : list entry :=
  match t with
  | [] => []
  | x :: rest => if p x then rest else after p rest
  end.

(** How the first entry satisfying [p] ended, if there is one. *)
Definition outcome_of (p : entry → bool) (t : list entry) : option (option exn) :=
  snd <$> List.find p t.

(** The account was obtained in this call: looked up by identity key, or
    created. *)
Definition resolved_by_identity (t : list entry) : bool :=
  existsb (λ x, match x with
                | (QueryOne _, None) | (Create _, None) => true
                | _ => false
                end) t.

Definition created (t : list entry) : bool :=
  existsb (λ x, match x with (Create _, None) => true | _ => false end) t.

(** An account that existed before the call was used: found by identity key
    or by reference. *)
Definition reused (t : list entry) : bool :=
  existsb (λ x, match x with
                | (QueryOne _, None) | (Find _, None) => true
                | _ => false
                end) t.

(** The card-attach step ended in a structured gateway error. *)
Definition card_declined (t : list entry) : bool :=
  match outcome_of is_card_attach t with
  | Some (Some (HTTPError _)) => true
  | _ => false
  end.

(** A column of the table, row by row. *)
Definition column (f : participant → option string)
    (t : gmap string participant) (k : string) : option (option string) :=
  f <$> t !! k.


(** The save of line 58: the one that carries the metadata and no card. *)
Definition is_meta_save (x : entry) : bool :=
  match x.1 with Save a => is_none (card_uri a) | _ => false end.


(** The card [_get] reads: the first one after sorting by [created_at]
    and reversing. *)
Definition latest (cs : list card) : option card := head (rev (sorted cs)).

(** What [_get] makes of the answer of the attribute lookup: the default
    for [AttributeError], the initial [out] for [IndexError], the empty
    string for [None]. *)
Definition shown (answer : result pyval) : result pyval :=
  match answer with
  | inr v => inr (if is_none v then VUnicode "" else v)
  | inl AttributeError | inl IndexError => inr (VUnicode "")
  | inl e => inl e
  end.

(** What [_get] reads off a card listing. *)
Definition read {G} `{!Gateway G} (cs : list card) (name : string)
    : result pyval :=
  match latest cs with
  | Some c => shown (lookup c name)
  | None => inr (VUnicode "")
  end.

(** A value as ["%d"] takes it. *)
Definition number (v : pyval) : option Z :=
  match v with
  | VInt z => Some z
  | VBool b => Some (if b then 1 else 0)
  | _ => None
  end.

(** Lines 44-48: the account found under the e-mail address, or created
    when none is found. *)
Definition obtain {G} `{!Gateway G} (email : string) (g : G)
    : result resource * G :=
  match gw_query_one email g with
  | (inl NoResultFound, g1) => gw_create email g1
  | answer => answer
  end.

(** The exceptions [associate] has a handler for: [NoResultFound] of the
    lookup by e-mail address, [HTTPError] of the card-attach save. *)
Definition handled (x : entry) : bool :=
  match x with
  | (QueryOne _, Some NoResultFound) => true
  | (Save a, Some (HTTPError _)) => negb (is_none (card_uri a))
  | _ => false
  end.

(** The table after the writes of a trace. *)
Definition replay (t : list entry) (d : gmap string participant)
    : gmap string participant :=
  foldl (λ d x, match x.1 with Execute q => db_execute q d | _ => d end) d t.

(** * Properties *)

(** ** Symbolic execution *)

Arguments set_meta : simpl never.
Arguments update_where : simpl never.
Arguments String.append : simpl never.

Lemma card_uri_set_meta k v a : card_uri (set_meta k v a) = card_uri a.
Proof. reflexivity. Qed.

Ltac sim := cbn; rewrite ?card_uri_set_meta; cbn.

Ltac run :=
  unfold mbind, M_bind, mret, M_ret, call, execute, raise, try_except_else;
  sim.

(* Case split on what the gateway answers to the next call. *)
Ltac answer_with t g :=
  is_var g; destruct t as [[?|?] ?] eqn:?; sim.

Ltac answer :=
  match goal with
  | |- context [@gw_query_one _ _ ?x ?g] => answer_with (gw_query_one x g) g
  | |- context [@gw_create _ _ ?x ?g] => answer_with (gw_create x g) g
  | |- context [@gw_save _ _ ?x ?g] => answer_with (gw_save x g) g
  | |- context [@gw_find _ _ ?x ?g] => answer_with (gw_find x g) g
  | |- context [@gw_cards _ _ ?x ?g] => answer_with (gw_cards x g) g
  | |- context [@gw_card_save _ _ ?x ?g] => answer_with (gw_card_save x g) g
  end.

(* Case split on the exception an [except] clause inspects. *)
Ltac handler :=
  match goal with
  | |- context [match ?e with
                | TypeError => _ | IndexError => _ | AttributeError => _
                | UnicodeEncodeError => _ | NoResultFound => _
                | MultipleResultsFound => _ | HTTPError _ => _
                | TransportError _ => _
                end] => is_var e; destruct e; sim
  end.

Ltac value :=
  match goal with
  | |- context [isinstance ?v _] => is_var v; destruct v; sim
  end.

Ltac answers := repeat first [ answer | handler | value ].

(** ** Columns under the three updates *)

Lemma column_update_where f g id (t : gmap string participant) k :
  column f (update_where id g t) k =
  match sql_text id with
  | Some i => if decide (k = i) then column (λ p, f (g p)) t k else column f t k
  | None => column f t k
  end.
Proof.
  unfold column, update_where. destruct (sql_text id) as [i|]; [|done].
  case_decide as Hk.
  - subst. rewrite lookup_alter_eq. by destruct (t !! i).
  - by rewrite lookup_alter_ne.
Qed.

Lemma column_if f (t : gmap string participant) k (P : Prop) `{!Decision P} :
  (if decide P then column f t k else column f t k) = column f t k.
Proof. by case_decide. Qed.

Open Scope list_scope.

(** ** associate *)

Section Phases.
Context {G : Type} `{!Gateway G}.

(** Lines 41-60 of [associate]: load or create a Balanced account. *)
Definition resolve (participant_id balanced_account_uri : pyval)
    : M G account :=
  let email_address := py_unicode participant_id +:+ "@gittip.com" in
  if is_none balanced_account_uri then
    customer ← try_except_else
      (call (QueryOne email_address) (gw_query_one email_address))
      (λ e, match e with
            | NoResultFound =>
                Some (call (Create email_address) (gw_create email_address))
            | _ => None
            end)
      mret;
    let customer := load customer in
    execute (CUSTOMER (VUnicode (uri customer)) participant_id);;
    let customer := set_meta "participant_id" participant_id customer in
    saved ← call (Save customer) (gw_save customer);
    mret (load saved)
  else
    found ← call (Find balanced_account_uri) (gw_find balanced_account_uri);
    mret (load found).

(** Lines 70-88 of [associate]: associate the card with the customer. *)
Definition attach (participant_id card_uri : pyval) (customer : account)
    : M G pyval :=
  let customer := set_card_uri card_uri customer in
  '(out, last_bill_result) ← try_except_else
    (call (Save customer) (gw_save customer))
    (λ e, match e with
          | HTTPError message =>
              Some (let last_bill_result := message in
                    typecheck [(last_bill_result, [unicode])];;
                    mret (message, last_bill_result))
          | _ => None
          end)
    (λ _, mret (VUnicode "", VUnicode ""));
  execute (STANDING last_bill_result participant_id);;
  mret out.

(** [associate] is its type check and these two blocks, one after the
    other. *)
Lemma associate_phases pid ref card :
  associate pid ref card =
  (typecheck [ (pid, [unicode]); (ref, [unicode; NoneType]); (card, [unicode]) ];;
   customer ← resolve pid ref;
   attach pid card customer).
Proof. reflexivity. Qed.

(** The account a call works on when it is given a reference: the one the
    gateway finds. *)
Lemma resolve_reference pid u (w : world G) found g1 :
  gw_find (VUnicode u) (gw w) = (inr found, g1) →
  resolve pid (VUnicode u) w =
    (inr (load found),
     World (db w) g1 (trace w ++ [(Find (VUnicode u), None)])).
Proof.
  intros Hf. unfold resolve, mbind, M_bind, call. cbn. by rewrite Hf.
Qed.
End Phases.

Arguments resolve : simpl never.

(** An entry of a list, with what comes before and after it. *)
Lemma entry_at {A} (t pre post : list A) x :
  t = pre ++ x :: post →
  ∃ i, t !! i = Some x ∧ pre = take i t ∧ post = drop (S i) t.
Proof.
  intros ->. exists (length pre). split; [|split].
  - by rewrite lookup_app_r, Nat.sub_diag by lia.
  - by rewrite take_app_length.
  - rewrite drop_app_ge by lia.
    by replace (S (length pre) - length pre)%nat with 1%nat by lia.
Qed.

Section AssociateProperties.
Context {G : Type} `{!Gateway G}.
Implicit Types (d : gmap string participant) (g : G).
Implicit Types (pid ref card : pyval).

(** C5: an exception of a gateway call for which [associate] has no
    handler (anything but [NoResultFound] of the lookup by e-mail address
    and a structured error of the card-attach save) leaves [associate] as
    it is: the call that raised is the last thing that happened, so nothing
    is written for it, the table holds the writes made before it and
    [last_bill_result] is not written; when it is the lookup of the
    account reference that raised, nothing was called before and the
    table is untouched. *)
Theorem associate_propagates_fatal_errors d g pid ref card :
  let '(res, w') := associate pid ref card (World d g []) in
  let t := trace w' in
  ∀ pre x e post, t = pre ++ (x, Some e) :: post →
    handled (x, Some e) = false →
    res = inl e ∧ post = [] ∧ db w' = replay pre d ∧
    count is_bill_result_write t = 0%nat ∧
    (is_find (x, Some e) = true → x = Find ref ∧ pre = [] ∧ db w' = d).
Proof.
  unfold associate.
  destruct pid, ref, card; run; answers.
  all: intros pre x e' post Ht Hh.
  all: apply entry_at in Ht as (i & Hx & -> & ->).
  all: repeat (destruct i as [|i]; simplify_eq/=).
  all: repeat split; try done; intros; discriminate.
Qed.

(** C4, as amended: a call that has resolved its account issues the
    card-attach save on that account.  If the save returns, the empty
    string is recorded and returned; if it raises a structured error whose
    message [m] is a unicode, [m] is recorded and returned; in both cases
    the one [last_bill_result] write of the call comes right after the save
    and stores what is returned.  A structured error whose message is not a
    unicode ends in [TypeError], any other exception leaves [associate] as
    it is, and in both cases nothing is written. *)
Theorem associate_records_outcome d g p ref c customer w1 :
  isinstance ref unicode || isinstance ref NoneType = true →
  resolve (VUnicode p) ref (World d g []) = (inr customer, w1) →
  let pid := VUnicode p in
  let a := set_card_uri (VUnicode c) customer in
  let '(answer, g2) := gw_save a (gw w1) in
  let '(res, w') := associate pid ref (VUnicode c) (World d g []) in
  let saved := trace w1 ++ [(Save a, status answer)] in
  gw w' = g2 ∧ count is_bill_result_write (trace w1) = 0%nat ∧
  match answer with
  | inr _ =>
      res = inr (VUnicode "") ∧
      trace w' = saved ++ [(Execute (STANDING (VUnicode "") pid), None)] ∧
      db w' = db_execute (STANDING (VUnicode "") pid) (db w1)
  | inl (HTTPError (VUnicode m)) =>
      res = inr (VUnicode m) ∧
      trace w' = saved ++ [(Execute (STANDING (VUnicode m) pid), None)] ∧
      db w' = db_execute (STANDING (VUnicode m) pid) (db w1)
  | inl (HTTPError _) => res = inl TypeError ∧ trace w' = saved ∧ db w' = db w1
  | inl e => res = inl e ∧ trace w' = saved ∧ db w' = db w1
  end.
Proof.
  intros Hty Hres. cbv zeta.
  assert (Hquiet : count is_bill_result_write (trace w1) = 0%nat).
  { revert Hres. unfold resolve.
    destruct ref; try discriminate Hty; run; answers.
    all: intros [= <- <-]; done. }
  rewrite associate_phases. unfold mbind at 1 2, M_bind at 1 2.
  assert (Htc : typecheck (G:=G)
            [ (VUnicode p, [unicode]); (ref, [unicode; NoneType]);
              (VUnicode c, [unicode]) ] (World d g []) = (inr tt, World d g [])).
  { by destruct ref. }
  rewrite Htc, Hres. unfold attach. run.
  destruct (gw_save (set_card_uri (VUnicode c) customer) (gw w1))
    as [[e|r] g2]; sim.
  - destruct e as [| | | | | |m|]; sim; try done.
    destruct m; sim; done.
  - done.
Qed.

(** C1, as amended: after a call whose card-attach step was declined, the
    account reference is what it was when the call was given a reference;
    when it was given none, the participant's row holds the reference of
    the account the gateway found under the participant's e-mail address
    or, when it found none, created.  No reference is nulled. *)
Theorem associate_failure_keeps_account_ref d g pid ref card :
  let '(res, w') := associate pid ref card (World d g []) in
  let t := trace w' in
  card_declined t = true →
  (is_none ref = false →
     ∀ k, column balanced_account_uri (db w') k =
          column balanced_account_uri d k) ∧
  (is_none ref = true →
     ∃ p r g1, pid = VUnicode p ∧
       obtain (p +:+ "@gittip.com") g = (inr r, g1) ∧
       List.find is_account_ref_write t =
         Some (Execute (CUSTOMER (VUnicode (res_uri r)) pid), None) ∧
       ∀ k, column balanced_account_uri (db w') k =
            if decide (k = p) then column (λ _, Some (res_uri r)) d k
            else column balanced_account_uri d k) ∧
  (∀ k u, column balanced_account_uri d k = Some (Some u) →
     ∃ u', column balanced_account_uri (db w') k = Some (Some u')).
Proof.
  unfold associate, card_declined.
  destruct pid as [| | |p|], ref, card; run;
    try (intros; discriminate); answers.
  all: try (intros; discriminate).
  all: intros _; split; [intros Hn; try discriminate; intros k
                        |split; [intros Hn; try discriminate
                                |intros k u] ].
  all: try (eexists p, _, _; split; [done|];
            split; [unfold obtain;
                    repeat match goal with
                           | E : gw_query_one _ _ = _ |- _ => rewrite E; clear E
                           | E : gw_create _ _ = _ |- _ => rewrite E; clear E
                           end; reflexivity|];
            split; [done|]; intros k).
  all: rewrite ?column_update_where; cbn.
  all: try (by repeat case_decide).
  all: try case_decide; eauto.
  all: unfold column; destruct (d !! k); naive_solver.
Qed.

(** C2, as amended: a call given no reference writes the account reference
    exactly once as soon as the account is found by its identity key or
    created, and before the card is attached; a call given a reference
    never writes it. *)
Theorem associate_account_ref_writes d g pid ref card :
  let t := trace (associate pid ref card (World d g [])).2 in
  count is_account_ref_write t =
    (if is_none ref && resolved_by_identity t then 1 else 0)%nat ∧
  (created t = true → count is_account_ref_write t = 1%nat) ∧
  (is_none ref = true → ∀ st, outcome_of is_card_attach t = Some st →
     count is_account_ref_write (before is_card_attach t) = 1%nat ∧
     count is_account_ref_write (after is_card_attach t) = 0%nat).
Proof.
  unfold associate.
  destruct pid, ref, card; run; try by (repeat split; intros; discriminate).
  all: answers; repeat split; try done; intros; discriminate.
Qed.
End AssociateProperties.

(** ** associate on the in-memory gateway *)

Module Scenario.
Definition alice : pyval := VUnicode "alice".
Definition token : pyval := VUnicode "card-token-X".

Definition never_billed : participant :=
  {| balanced_account_uri := None; last_bill_result := None |}.

Definition table : gmap string participant := {[ "alice" := never_billed ]}.

Definition visa : card :=
  {| card_id := "/v1/cards/1"; created_at := 1; is_valid := true;
     attrs := {[ "last_four" := VUnicode "1111" ]} |}.

(** A gateway that knows nobody and holds one tokenised card. *)
Definition fresh : Mem.t :=
  {| Mem.accounts := []; Mem.cards := [];
     Mem.tokens := {[ "card-token-X" := visa ]}; Mem.faults := [] |}.

(** The same gateway without the tokenised card: attaching is declined. *)
Definition declining : Mem.t :=
  {| Mem.accounts := []; Mem.cards := []; Mem.tokens := ∅;
     Mem.faults := [] |}.

(** A gateway that already has an account for alice's identity key. *)
Definition known : Mem.t :=
  {| Mem.accounts := [ {| res_uri := "/v1/accounts/7";
                          res_email_address := "alice@gittip.com";
                          res_meta := ∅ |} ];
     Mem.cards := []; Mem.tokens := {[ "card-token-X" := visa ]};
     Mem.faults := [] |}.

(** The fourth call (the card-attach save) dies on the wire. *)
Definition flaky : Mem.t :=
  Mem.with_faults [None; None; None; Some (TransportError "timeout")] fresh.

(** The lookup by reference dies on the wire. *)
Definition down : Mem.t :=
  Mem.with_faults [Some (TransportError "timeout")] known.
End Scenario.

(** The scenario of section 8: no prior account, the account is created, its
    reference written, the card attached, good standing recorded. *)
Example associate_new_participant :
  let '(res, w) := associate Scenario.alice VNone Scenario.token
                     (World Scenario.table Scenario.fresh []) in
  res = inr (VUnicode "") ∧
  map (λ x, is_store_write x || is_card_attach x) (trace w) =
    [false; false; true; false; true; true] ∧
  db w !! "alice" = Some {| balanced_account_uri := Some "/v1/accounts/0";
                           last_bill_result := Some "" |}.
Proof. vm_compute. done. Qed.

(** C1: with no reference on record, a declined card leaves the reference of
    the account just created in the row, not NULL. *)
Lemma associate_failure_changes_null_ref :
  ¬ (∀ (d : gmap string participant) (g : Mem.t) pid ref card k,
       let w' := (associate pid ref card (World d g [])).2 in
       card_declined (trace w') = true →
       column balanced_account_uri (db w') k = column balanced_account_uri d k).
Proof.
  intros H.
  specialize (H Scenario.table Scenario.declining Scenario.alice VNone
                Scenario.token "alice").
  vm_compute in H. by specialize (H eq_refl).
Qed.

Lemma associate_failure_keeps_account_ref_witness :
  let '(res, w') := associate Scenario.alice VNone Scenario.token
                      (World Scenario.table Scenario.declining []) in
  card_declined (trace w') = true ∧
  (obtain "alice@gittip.com" Scenario.declining).1 =
    inr {| res_uri := "/v1/accounts/0";
           res_email_address := "alice@gittip.com"; res_meta := ∅ |} ∧
  column balanced_account_uri (db w') "alice" = Some (Some "/v1/accounts/0").
Proof.
  pose proof (associate_failure_keeps_account_ref Scenario.table
                Scenario.declining Scenario.alice VNone Scenario.token) as H.
  destruct (associate _ _ _ _) as [res w'] eqn:E.
  assert (Hd : card_declined (trace w') = true).
  { apply (f_equal snd) in E. cbn in E. subst w'. vm_compute. reflexivity. }
  split; [exact Hd|].
  destruct (H Hd) as (_ & Hnone & _).
  destruct (Hnone eq_refl) as (p & r & g1 & Hp & Hob & Hfind & Hcol).
  injection Hp as <-.
  vm_compute in Hob. injection Hob as <- <-.
  split; [vm_compute; reflexivity|].
  rewrite Hcol. vm_compute. reflexivity.
Defined.

(* Replace a run on a concrete world by its value. *)
Ltac evaluate E := vm_compute in E; injection E as <- <-.

(** C2: an account found by its identity key is an existing account put to
    use again, no account is created, and yet the reference is written. *)
Lemma associate_writes_ref_of_reused_account :
  ¬ (∀ (d : gmap string participant) (g : Mem.t) pid ref card,
       let t := trace (associate pid ref card (World d g [])).2 in
       (created t = true → count is_account_ref_write t = 1%nat) ∧
       (reused t = true → count is_account_ref_write t = 0%nat)).
Proof.
  intros H.
  specialize (H Scenario.table Scenario.known Scenario.alice VNone
                Scenario.token).
  vm_compute in H. destruct H as [_ H]. by specialize (H eq_refl).
Qed.

Lemma associate_account_ref_writes_witness :
  let t := trace (associate Scenario.alice VNone Scenario.token
                    (World Scenario.table Scenario.fresh [])).2 in
  created t = true ∧ count is_account_ref_write t = 1%nat ∧
  count is_account_ref_write (before is_card_attach t) = 1%nat.
Proof.
  pose proof (associate_account_ref_writes Scenario.table Scenario.fresh
                Scenario.alice VNone Scenario.token) as H.
  cbn zeta in *. destruct H as (_ & Hcreated & Hbefore).
  assert (Hc : created (trace (associate Scenario.alice VNone Scenario.token
                 (World Scenario.table Scenario.fresh [])).2) = true)
    by (vm_compute; reflexivity).
  split; [exact Hc|]. split; [exact (Hcreated Hc)|].
  refine (proj1 (Hbefore eq_refl None _)). vm_compute. reflexivity.
Defined.

(** C4: a structured error whose message is not a unicode (here the
    error details as a dict) is neither returned nor recorded. *)
Lemma associate_loses_untyped_message :
  ¬ (∀ (d : gmap string participant) (g : Mem.t) pid ref card m,
       let '(res, w') := associate pid ref card (World d g []) in
       outcome_of is_card_attach (trace w') = Some (Some (HTTPError m)) →
       res = inr m ∧ count is_bill_result_write (trace w') = 1%nat).
Proof.
  intros H.
  specialize (H Scenario.table
                (Mem.with_faults
                   [None; None; None;
                    Some (HTTPError (VObject "{'description': 'declined'}" true))]
                   Scenario.fresh)
                Scenario.alice VNone Scenario.token
                (VObject "{'description': 'declined'}" true)).
  vm_compute in H. by destruct (H eq_refl).
Qed.

Lemma associate_records_outcome_witness :
  (let '(res, w') := associate (VUnicode "alice") (VUnicode "/v1/accounts/7")
                       (VUnicode "card-token-X")
                       (World Scenario.table Scenario.known []) in
   res = inr (VUnicode "") ∧
   last (trace w') = Some (Execute (STANDING (VUnicode "") (VUnicode "alice")), None) ∧
   db w' !! "alice" = Some {| balanced_account_uri := None;
                             last_bill_result := Some "" |}) ∧
  (let '(res, w') := associate (VUnicode "alice") VNone (VUnicode "card-token-X")
                       (World Scenario.table Scenario.declining []) in
   res = inr (VUnicode "card-not-found") ∧
   last (trace w') =
     Some (Execute (STANDING (VUnicode "card-not-found") (VUnicode "alice")), None) ∧
   db w' !! "alice" = Some {| balanced_account_uri := Some "/v1/accounts/0";
                             last_bill_result := Some "card-not-found" |}).
Proof.
  split.
  - pose proof (associate_records_outcome Scenario.table Scenario.known "alice"
                  (VUnicode "/v1/accounts/7") "card-token-X" _ _
                  eq_refl eq_refl) as H.
    cbv zeta in H.
    destruct (gw_save _ _) as [answer g2] eqn:Es in H.
    vm_compute in Es. injection Es as <- <-.
    destruct (associate _ _ _ _) as [res w'].
    destruct H as (_ & _ & Hr & Ht & Hd).
    split; [exact Hr|]. split; [by rewrite Ht|].
    rewrite Hd. vm_compute. reflexivity.
  - pose proof (associate_records_outcome Scenario.table Scenario.declining
                  "alice" VNone "card-token-X" _ _ eq_refl eq_refl) as H.
    cbv zeta in H.
    destruct (gw_save _ _) as [answer g2] eqn:Es in H.
    vm_compute in Es. injection Es as <- <-.
    destruct (associate _ _ _ _) as [res w'].
    destruct H as (_ & _ & Hr & Ht & Hd).
    split; [exact Hr|]. split; [by rewrite Ht|].
    rewrite Hd. vm_compute. reflexivity.
Defined.

Lemma associate_propagates_fatal_errors_witness :
  (let '(res, w') := associate Scenario.alice VNone Scenario.token
                       (World Scenario.table Scenario.flaky []) in
   outcome_of is_card_attach (trace w') =
     Some (Some (TransportError "timeout")) ∧
   res = inl (TransportError "timeout") ∧
   count is_bill_result_write (trace w') = 0%nat ∧
   db w' !! "alice" = Some {| balanced_account_uri := Some "/v1/accounts/0";
                             last_bill_result := None |}) ∧
  (let '(res, w') := associate Scenario.alice (VUnicode "/v1/accounts/7")
                       Scenario.token (World Scenario.table Scenario.down []) in
   outcome_of is_find (trace w') = Some (Some (TransportError "timeout")) ∧
   res = inl (TransportError "timeout") ∧ db w' = Scenario.table).
Proof.
  split.
  - pose proof (associate_propagates_fatal_errors Scenario.table Scenario.flaky
                  Scenario.alice VNone Scenario.token) as H.
    destruct (associate _ _ _ _) as [res w'] eqn:E. evaluate E.
    split; [reflexivity|].
    destruct (H [_; _; _; _] _ _ [] eq_refl eq_refl) as (Hr & _ & Hd & Hn & _).
    split; [exact Hr|]. split; [exact Hn|].
    rewrite Hd. vm_compute. reflexivity.
  - pose proof (associate_propagates_fatal_errors Scenario.table Scenario.down
                  Scenario.alice (VUnicode "/v1/accounts/7") Scenario.token) as H.
    destruct (associate _ _ _ _) as [res w'] eqn:E. evaluate E.
    split; [reflexivity|].
    destruct (H [] _ _ [] eq_refl eq_refl) as (Hr & _ & _ & _ & Hf).
    split; [exact Hr|]. by destruct (Hf eq_refl) as (_ & _ & ->).
Defined.

(** ** clear *)

(** The body of the loop of [clear]. *)
Definition invalidate {G} `{!Gateway G} (card : card) : M G unit :=
  if is_valid card then
    let card := set_is_valid false card in
    call (CardSave card) (gw_card_save card);; mret tt
  else mret tt.

(** The saves a completed loop has made for the listing [cs]. *)
Definition invalidations (cs : list card) : list entry :=
  map (λ c, (CardSave (set_is_valid false c), None)) (List.filter is_valid cs).

Section ClearProperties.
Context {G : Type} `{!Gateway G}.
Implicit Types (d : gmap string participant) (g : G) (pid ref : pyval).

Lemma clear_unfold pid ref :
  clear pid ref =
  (typecheck [ (pid, [unicode]); (ref, [unicode]) ];;
   found ← call (Find ref) (gw_find ref);
   cards ← call (Cards (load found)) (gw_cards (load found));
   for_each cards invalidate;;
   execute (CLEAR pid)).
Proof. reflexivity. Qed.

(** The loop only saves cards; when it completes it has saved, in order,
    each card of the listing that was valid, marked invalid. *)
Lemma invalidate_loop cs : ∀ w : world G,
  let '(res, w') := for_each cs invalidate w in
  db w' = db w ∧
  ∃ saves : list entry, trace w' = (trace w ++ saves)%list ∧
    count is_store_write saves = 0%nat ∧
    (res = inr tt → saves = invalidations cs).
Proof.
  induction cs as [|c cs IH]; intros w.
  - cbn. split; [done|]. exists []. by rewrite app_nil_r.
  - cbn [for_each]. unfold mbind, M_bind, invalidate at 1.
    destruct (is_valid c) eqn:Hv.
    + run. destruct (gw_card_save _ _) as [[e|c'] g1]; cbn.
      * split; [done|]. eexists [_]. by repeat split.
      * specialize (IH (World (db w) g1
                          (trace w ++ [(CardSave (set_is_valid false c), None)]))).
        destruct (for_each cs invalidate _) as [res w'].
        destruct IH as (Hdb & saves & Ht & Hn & Hs). cbn in Hdb, Ht.
        split; [done|]. eexists (_ :: saves).
        rewrite Ht, <- app_assoc. split; [done|]. split; [done|].
        intros Hr. unfold invalidations. cbn. rewrite Hv. cbn.
        by rewrite (Hs Hr).
    + run. specialize (IH w).
      destruct (for_each cs invalidate w) as [res w'].
      destruct IH as (Hdb & saves & Ht & Hn & Hs).
      split; [done|]. exists saves. repeat split; try done.
      intros Hr. unfold invalidations. cbn. rewrite Hv. by apply Hs.
Qed.

Lemma count_app p (s t : list entry) : count p (s ++ t) = (count p s + count p t)%nat.
Proof. unfold count. by rewrite List.filter_app, length_app. Qed.

Lemma after_app_none p (s t : list entry) :
  count p s = 0%nat → after p (s ++ t) = after p t.
Proof.
  induction s as [|x s IH]; [done|]. unfold count. cbn.
  destruct (p x); [done|]. apply IH.
Qed.

Lemma after_none p (s : list entry) : count p s = 0%nat → after p s = [].
Proof.
  induction s as [|x s IH]; [done|]. unfold count. cbn.
  destruct (p x); [done|]. apply IH.
Qed.

Lemma no_store_write_no_reset (s : list entry) :
  count is_store_write s = 0%nat → count is_reset_write s = 0%nat.
Proof.
  unfold count. induction s as [|[[] st] s IH]; cbn; done.
Qed.

Lemma count_invalidations p :
  (∀ c st, p (CardSave c, st) = false) → ∀ cs, count p (invalidations cs) = 0%nat.
Proof.
  intros Hp cs. unfold invalidations, count.
  induction (List.filter is_valid cs) as [|c l IH]; [done|].
  cbn. by rewrite Hp.
Qed.

(** C3: a completed [clear] has looked the account up, listed its cards,
    saved each card that was valid, marked invalid, once and in order,
    skipped the others, and then issued its one write, which resets both
    columns; in every run the reset write, if any, is the last thing that
    happens, and a run that raises writes nothing. *)
Theorem clear_invalidates_then_resets d g pid ref :
  let '(res, w') := clear pid ref (World d g []) in
  let t := trace w' in
  (res = inr tt →
     ∃ found g1 cs g2,
       gw_find ref g = (inr found, g1) ∧
       gw_cards (load found) g1 = (inr cs, g2) ∧
       t = [(Find ref, None); (Cards (load found), None)]
           ++ invalidations cs ++ [(Execute (CLEAR pid), None)] ∧
       db w' = db_execute (CLEAR pid) d ∧
       ∃ p, pid = VUnicode p ∧
         column balanced_account_uri (db w') p = column (λ _, None) d p ∧
         column last_bill_result (db w') p = column (λ _, None) d p) ∧
  count is_store_write t = count is_reset_write t ∧
  after is_reset_write t = [] ∧
  (∀ e, res = inl e → count is_store_write t = 0%nat ∧ db w' = d).
Proof.
  rewrite clear_unfold.
  destruct pid as [| | |p|], ref; run; try by (repeat split; intros; discriminate).
  answer; [by repeat split; intros; discriminate|].
  answer; [by repeat split; intros; discriminate|].
  match goal with
  | |- context [for_each ?cs invalidate ?w] =>
      pose proof (invalidate_loop cs w) as H;
      destruct (for_each cs invalidate w) as [[e|[]] w2]
  end; cbn in *.
  all: destruct H as (Hdb & saves & Ht & Hn & Hs); rewrite Ht.
  - change (?a :: ?b :: saves) with ([a; b] ++ saves).
    repeat change (length (List.filter ?q ?t)) with (count q t).
    pose proof (no_store_write_no_reset _ Hn) as Hr.
    rewrite !count_app, Hn, Hr, after_app_none, (after_none _ _ Hr) by done.
    repeat split; done.
  - rewrite (Hs eq_refl), Hdb.
    change ((?a :: ?b :: ?l) ++ ?c) with ([a; b] ++ l ++ c).
    repeat change (length (List.filter ?q ?t)) with (count q t).
    rewrite !count_app, !count_invalidations by done.
    rewrite !after_app_none by (by rewrite ?count_invalidations).
    repeat split; try done.
    intros _. eexists _, _, _, _. repeat split; try done.
    exists p. split; [done|]. rewrite !column_update_where. cbn.
    by case_decide.
Qed.

(** C10: [clear] called with no account reference fails its type check
    before anything is called or written. *)
Theorem clear_requires_account_ref pid (w : world G) :
  clear pid VNone w = (inl TypeError, w).
Proof. unfold clear. destruct pid; reflexivity. Qed.
End ClearProperties.

(** ** The card view *)

Lemma last_insert_below c m l :
  last l = Some m → created_at c ≤ created_at m →
  last (insert_by_created_at c l) = Some m.
Proof.
  intros Hl Hc. induction l as [|d l IH]; [done|].
  cbn. destruct (created_at c <=? created_at d) eqn:Hd; [exact Hl|].
  rewrite last_cons in Hl |- *. destruct (last l) as [m'|] eqn:Hm.
  - by rewrite (IH Hl).
  - simplify_eq. lia.
Qed.

Lemma insert_above c l :
  Forall (λ x, created_at x < created_at c) l →
  insert_by_created_at c l = l ++ [c].
Proof.
  induction 1 as [|d l Hd _ IH]; [done|].
  cbn. destruct (created_at c <=? created_at d) eqn:E; [lia|]. by rewrite IH.
Qed.

Lemma elem_of_insert x c l :
  x ∈ insert_by_created_at c l ↔ x = c ∨ x ∈ l.
Proof.
  induction l as [|d l IH]; cbn.
  - rewrite elem_of_cons, elem_of_nil. tauto.
  - destruct (created_at c <=? created_at d).
    + by rewrite elem_of_cons.
    + rewrite !elem_of_cons, IH. tauto.
Qed.

Lemma elem_of_sorted x cs : x ∈ sorted cs ↔ x ∈ cs.
Proof.
  induction cs as [|c cs IH]; [done|].
  cbn. by rewrite elem_of_insert, IH, elem_of_cons.
Qed.

(** After sorting, the last card is the one created last; of several cards
    created at that time, the one listed last. *)
Lemma last_sorted cs :
  match last (sorted cs) with
  | None => cs = []
  | Some c =>
      ∃ l1 l2, cs = l1 ++ c :: l2 ∧
        Forall (λ x, created_at x ≤ created_at c) l1 ∧
        Forall (λ x, created_at x < created_at c) l2
  end.
Proof.
  induction cs as [|c cs IH]; [done|]. cbn.
  destruct (last (sorted cs)) as [m|] eqn:Hm.
  - destruct IH as (l1 & l2 & -> & H1 & H2).
    destruct (decide (created_at c ≤ created_at m)) as [Hc|Hc].
    + rewrite (last_insert_below c m) by done.
      exists (c :: l1), l2. by repeat constructor.
    + assert (Hall : Forall (λ x, created_at x < created_at c)
                       (sorted (l1 ++ m :: l2))).
      { apply Forall_forall. intros x Hx. apply (proj1 (elem_of_sorted _ _)) in Hx.
        apply elem_of_app in Hx as [Hx|Hx].
        - rewrite Forall_forall in H1. specialize (H1 x Hx). cbn in H1. lia.
        - apply elem_of_cons in Hx as [->|Hx]; [lia|].
          rewrite Forall_forall in H2. specialize (H2 x Hx). cbn in H2. lia. }
      rewrite (insert_above _ _ Hall), last_snoc.
      exists [], (l1 ++ m :: l2). repeat split; [done|].
      apply Forall_forall. intros x Hx.
      rewrite Forall_forall in Hall. by apply Hall, (proj2 (elem_of_sorted _ _)).
  - subst cs. cbn. by exists [], [].
Qed.

Lemma first_of_rev {G} (l : list card) (w : world G) :
  first_item (rev l) w =
  match last l with Some c => (inr c, w) | None => (inl IndexError, w) end.
Proof.
  induction l as [|c l _] using rev_ind; [done|].
  by rewrite rev_app_distr, last_snoc.
Qed.

Lemma head_rev {A} (l : list A) : head (rev l) = last l.
Proof.
  induction l as [|x l _] using rev_ind; [done|].
  by rewrite rev_app_distr, last_snoc.
Qed.

Section AccountProperties.
Context {G : Type} `{!Gateway G}.
Implicit Types (w : world G) (name : string).

(** [_get] on a listing that returned. *)
Lemma get_reads cs g' acct name w :
  gw_cards acct (gw w) = (inr cs, g') →
  Account._get {| Account._account := Some acct |} name w =
    (read cs name, World (db w) g' (trace w ++ [(Cards acct, None)])).
Proof.
  intros Hcs. unfold Account._get, read, latest. cbn [Account._account].
  unfold mbind, M_bind, try_except_else, call. rewrite Hcs. cbn.
  rewrite first_of_rev, head_rev.
  destruct (last (sorted cs)) as [c|]; [|done]. cbn.
  unfold getattr. destruct (lookup c name) as [[]|v]; cbn; try done.
Qed.

(** A view built on no account reference asks the gateway nothing, neither
    when it is built nor when it is read; its [id] is [None] and every other
    key reads as the empty string. *)
Theorem account_of_none_is_blank w name :
  Account.__init__ VNone w = (inr {| Account._account := None |}, w) ∧
  Account.__getitem__ {| Account._account := None |} name w =
    (inr (if String.eqb name "id" then VNone else VUnicode ""), w).
Proof.
  split; [done|]. unfold Account.__getitem__.
  destruct (String.eqb name "id"); [done|].
  destruct (String.eqb name "last4"); [done|].
  by destruct (String.eqb name "expiry").
Qed.

(** When the account lists no card, [_get] reads the empty string; when it
    lists some, [_get] looks the attribute up on the card created last (the
    one listed last among those created at that time): the value, with
    [None] read as the empty string; the empty string when the card has no
    such attribute; the exception of the lookup otherwise ([IndexError]
    apart, which the [except] clause takes).  The listing is the one call
    made. *)
Theorem get_reads_latest_card acct name cs w g' :
  gw_cards acct (gw w) = (inr cs, g') →
  ∃ r, Account._get {| Account._account := Some acct |} name w =
         (r, World (db w) g' (trace w ++ [(Cards acct, None)])) ∧
    ((cs = [] ∧ r = inr (VUnicode "")) ∨
     ∃ l1 c l2, cs = l1 ++ c :: l2 ∧ latest cs = Some c ∧
       Forall (λ x, created_at x ≤ created_at c) l1 ∧
       Forall (λ x, created_at x < created_at c) l2 ∧
       r = shown (lookup c name)).
Proof.
  intros Hcs. rewrite (get_reads _ _ _ name _ Hcs). eexists. split; [done|].
  unfold read, latest. rewrite head_rev.
  pose proof (last_sorted cs) as Hl.
  destruct (last (sorted cs)) as [c|].
  - destruct Hl as (l1 & l2 & -> & H1 & H2). right. by exists l1, c, l2.
  - subst cs. by left.
Qed.

(** An exception of the card listing leaves [_get], except [IndexError],
    which is taken for an empty listing. *)
Theorem get_swallows_index_error_only acct name e w g' :
  gw_cards acct (gw w) = (inl e, g') →
  Account._get {| Account._account := Some acct |} name w =
    (if decide (e = IndexError) then inr (VUnicode "") else inl e,
     World (db w) g' (trace w ++ [(Cards acct, Some e)])).
Proof.
  intros He. unfold Account._get. cbn [Account._account].
  unfold mbind, M_bind, try_except_else, call. rewrite He. cbn.
  by destruct e.
Qed.



(** [expiry] is never half a date.  With [month] the expiration_month
    read off the first listing and [year] the expiration_year read off the
    second, what is returned is the empty string when one of the two
    counts as false, and otherwise that month and that year, both numbers
    other than zero, around a slash. *)
Theorem expiry_is_whole_or_empty acct w cs g1 cs' g2 v :
  gw_cards acct (gw w) = (inr cs, g1) →
  gw_cards acct g1 = (inr cs', g2) →
  (Account.__getitem__ {| Account._account := Some acct |} "expiry" w).1 = inr v →
  ∃ month year,
    read cs "expiration_month" = inr month ∧
    read cs' "expiration_year" = inr year ∧
    ((truthy month && truthy year = false ∧ v = VUnicode "") ∨
     ∃ m y : Z, number month = Some m ∧ number year = Some y ∧
       m ≠ 0 ∧ y ≠ 0 ∧ v = VUnicode (pretty m +:+ "/" +:+ pretty y)).
Proof.
  intros Hcs Hcs'. unfold Account.__getitem__.
  cbn [String.eqb Ascii.eqb Bool.eqb]. unfold mbind, M_bind.
  rewrite (get_reads _ _ _ "expiration_month" _ Hcs).
  destruct (read cs "expiration_month") as [e|month]; [cbn; discriminate|].
  cbv beta iota.
  rewrite (get_reads cs' g2 acct "expiration_year" (World (db w) g1 _) Hcs').
  destruct (read cs' "expiration_year") as [e|year]; [cbn; discriminate|].
  intros Hv. exists month, year. split; [done|]. split; [done|].
  revert Hv.
  destruct month as [|[]|m|?|? []], year as [|[]|y|?|? []]; cbn;
    try destruct (m =? 0) eqn:Hm; try destruct (y =? 0) eqn:Hy; cbn;
    repeat (match goal with
            | |- context [String.eqb ?s ""] => destruct (String.eqb s "")
            end; cbn);
    intros Hv; simplify_eq; try (by left); right.
  - by exists 1, 1.
  - exists 1, y. repeat split; [done|lia].
  - exists m, 1. repeat split; [lia|done].
  - exists m, y. repeat split; lia.
Qed.

(** [last4] is masked or empty.  With [out] the last_four read off the
    listing, what is returned is [out] itself when it counts as false, and
    otherwise twelve asterisks in front of it, a unicode that is not empty.
    In particular the empty string is returned when no card is listed and
    when the latest card has no last_four. *)
Theorem last4_is_masked_or_empty acct w cs g1 v :
  gw_cards acct (gw w) = (inr cs, g1) →
  (Account.__getitem__ {| Account._account := Some acct |} "last4" w).1 = inr v →
  (∃ out, read cs "last_four" = inr out ∧
     ((truthy out = false ∧ v = out) ∨
      ∃ s, s ≠ "" ∧ out = VUnicode s ∧ v = VUnicode ("************" +:+ s))) ∧
  (cs = [] → v = VUnicode "") ∧
  (∀ c, latest cs = Some c → lookup c "last_four" = inl AttributeError →
     v = VUnicode "").
Proof.
  intros Hcs. unfold Account.__getitem__.
  cbn [String.eqb Ascii.eqb Bool.eqb]. unfold mbind, M_bind.
  rewrite (get_reads _ _ _ "last_four" _ Hcs).
  destruct (read cs "last_four") as [e|out] eqn:Hread; [cbn; discriminate|].
  intros Hv.
  assert (Hout : (truthy out = false ∧ v = out) ∨
            ∃ s, s ≠ "" ∧ out = VUnicode s ∧ v = VUnicode ("************" +:+ s)).
  { destruct (truthy out) eqn:Ht.
    - destruct out as [| | |s|]; cbn in Hv; try discriminate.
      injection Hv as <-. right. exists s. split; [|done].
      intros ->. discriminate.
    - cbn in Hv. injection Hv as <-. by left. }
  split; [by exists out|]. split.
  - intros ->. cbn in Hread. injection Hread as <-.
    by destruct Hout as [[_ ->]|(s & Hs & [= <-] & _)].
  - intros c Hc Hl. unfold read in Hread. rewrite Hc, Hl in Hread.
    cbn in Hread. injection Hread as <-.
    by destruct Hout as [[_ ->]|(s & Hs & [= <-] & _)].
Qed.
End AccountProperties.

Section AccountInit.
Context {G : Type} `{!Gateway G}.

(** A view built on an account reference looks the account up with one
    call and nothing else; an exception of the lookup leaves [__init__];
    after a lookup that returned, [id] is the reference the gateway
    returned, read without a call. *)
Theorem account_init_finds_once ref (w : world G) :
  is_none ref = false →
  let '(res, w') := Account.__init__ ref w in
  db w' = db w ∧
  trace w' = trace w ++ [(Find ref, status res)] ∧
  ∀ self, res = inr self →
    ∃ found, gw_find ref (gw w) = (inr found, gw w') ∧
      ∀ w2 : world G,
        Account.__getitem__ self "id" w2 = (inr (VUnicode (res_uri found)), w2).
Proof.
  intros Href. unfold Account.__init__. rewrite Href. cbn [negb].
  unfold mbind, M_bind, call.
  destruct (gw_find ref (gw w)) as [[e|found] g'] eqn:Hfind; cbn.
  - by repeat split.
  - repeat split; try done. intros self [= <-]. by exists found.
Qed.
End AccountInit.

(** ** The card view on the in-memory gateway *)

Module Wallet.
Definition owner : account :=
  load {| res_uri := "/v1/accounts/7"; res_email_address := "alice@gittip.com";
          res_meta := ∅ |}.

Definition amex : card :=
  {| card_id := "/v1/cards/2"; created_at := 2; is_valid := true;
     attrs := {[ "last_four" := VUnicode "4242";
                 "expiration_month" := VInt 12;
                 "expiration_year" := VInt 2020 ]} |}.

(** The account of [Scenario.known] with two cards, the newer listed first. *)
Definition two_cards : Mem.t :=
  Mem.with_cards [ ("/v1/accounts/7", amex); ("/v1/accounts/7", Scenario.visa) ]
                 Scenario.known.

(** The listing is answered with an exception. *)
Definition failing (e : exn) : Mem.t := Mem.with_faults [Some e] two_cards.

Definition view : Account.t := {| Account._account := Some owner |}.

Definition start (g : Mem.t) : world Mem.t := World Scenario.table g [].
End Wallet.

Lemma get_reads_latest_card_witness :
  ∃ r, Account._get Wallet.view "last_four" (Wallet.start Wallet.two_cards) =
         (r, World Scenario.table Wallet.two_cards [(Cards Wallet.owner, None)]) ∧
    (([Wallet.amex; Scenario.visa] = [] ∧ r = inr (VUnicode "")) ∨
     ∃ l1 c l2, [Wallet.amex; Scenario.visa] = l1 ++ c :: l2 ∧
       latest [Wallet.amex; Scenario.visa] = Some c ∧
       Forall (λ x, created_at x ≤ created_at c) l1 ∧
       Forall (λ x, created_at x < created_at c) l2 ∧
       r = shown (lookup (G:=Mem.t) c "last_four")).
Proof.
  apply (get_reads_latest_card Wallet.owner "last_four"
           [Wallet.amex; Scenario.visa] (Wallet.start Wallet.two_cards)
           Wallet.two_cards).
  vm_compute. reflexivity.
Defined.

Lemma get_swallows_index_error_only_witness :
  Account._get Wallet.view "last_four"
    (Wallet.start (Wallet.failing (TransportError "timeout"))) =
    (inl (TransportError "timeout"),
     World Scenario.table Wallet.two_cards
       [(Cards Wallet.owner, Some (TransportError "timeout"))]) ∧
  Account._get Wallet.view "last_four"
    (Wallet.start (Wallet.failing IndexError)) =
    (inr (VUnicode ""),
     World Scenario.table Wallet.two_cards
       [(Cards Wallet.owner, Some IndexError)]).
Proof.
  split.
  - apply (get_swallows_index_error_only Wallet.owner "last_four"
             (TransportError "timeout")
             (Wallet.start (Wallet.failing (TransportError "timeout")))
             Wallet.two_cards).
    vm_compute. reflexivity.
  - apply (get_swallows_index_error_only Wallet.owner "last_four" IndexError
             (Wallet.start (Wallet.failing IndexError)) Wallet.two_cards).
    vm_compute. reflexivity.
Defined.

Lemma expiry_is_whole_or_empty_witness :
  (Account.__getitem__ Wallet.view "expiry" (Wallet.start Wallet.two_cards)).1 =
    inr (VUnicode "12/2020") ∧
  ∃ month year,
    read (G:=Mem.t) [Wallet.amex; Scenario.visa] "expiration_month" = inr month ∧
    read (G:=Mem.t) [Wallet.amex; Scenario.visa] "expiration_year" = inr year ∧
    ((truthy month && truthy year = false ∧ VUnicode "12/2020" = VUnicode "") ∨
     ∃ m y : Z, number month = Some m ∧ number year = Some y ∧
       m ≠ 0 ∧ y ≠ 0 ∧
       VUnicode "12/2020" = VUnicode (pretty m +:+ "/" +:+ pretty y)).
Proof.
  split; [vm_compute; reflexivity|].
  apply (expiry_is_whole_or_empty Wallet.owner (Wallet.start Wallet.two_cards)
           [Wallet.amex; Scenario.visa] Wallet.two_cards
           [Wallet.amex; Scenario.visa] Wallet.two_cards).
  all: vm_compute; reflexivity.
Defined.

Lemma last4_is_masked_or_empty_witness :
  (Account.__getitem__ Wallet.view "last4" (Wallet.start Wallet.two_cards)).1 =
    inr (VUnicode "************4242") ∧
  ∃ out, read (G:=Mem.t) [Wallet.amex; Scenario.visa] "last_four" = inr out ∧
    ((truthy out = false ∧ VUnicode "************4242" = out) ∨
     ∃ s, s ≠ "" ∧ out = VUnicode s ∧
       VUnicode "************4242" = VUnicode ("************" +:+ s)).
Proof.
  split; [vm_compute; reflexivity|].
  apply (last4_is_masked_or_empty Wallet.owner (Wallet.start Wallet.two_cards)
           [Wallet.amex; Scenario.visa] Wallet.two_cards).
  all: vm_compute; reflexivity.
Defined.

Lemma account_init_finds_once_witness :
  let '(res, w') := Account.__init__ (VUnicode "/v1/accounts/7")
                      (Wallet.start Wallet.two_cards) in
  trace w' = [(Find (VUnicode "/v1/accounts/7"), None)] ∧
  ∃ self, res = inr self ∧
    Account.__getitem__ self "id" w' = (inr (VUnicode "/v1/accounts/7"), w').
Proof.
  pose proof (account_init_finds_once (VUnicode "/v1/accounts/7")
                (Wallet.start Wallet.two_cards) eq_refl) as H.
  destruct (Account.__init__ _ _) as [res w'] eqn:E. evaluate E.
  destruct H as (_ & Ht & Hid). split; [exact Ht|].
  eexists. split; [reflexivity|].
  destruct (Hid _ eq_refl) as (found & Hfound & Hget).
  vm_compute in Hfound. injection Hfound as <-.
  apply Hget.
Defined.

(** ** associate: what else a call can run into *)

Lemma dom_update_where id f (t : gmap string participant) :
  dom (update_where id f t) = dom t.
Proof.
  unfold update_where. destruct (sql_text id); [|done]. apply dom_alter_L.
Qed.

Lemma lookup_update_where_ne id f (t : gmap string participant) k :
  sql_text id ≠ Some k → update_where id f t !! k = t !! k.
Proof.
  intros Hk. unfold update_where.
  destruct (sql_text id) as [i|] eqn:Hi; [|done].
  apply lookup_alter_ne. congruence.
Qed.

Section AssociateEdges.
Context {G : Type} `{!Gateway G}.
Implicit Types (d : gmap string participant) (g : G).
Implicit Types (pid ref card : pyval).

(** An argument of the wrong type makes [associate] raise [TypeError]
    before anything is called or written. *)
Theorem associate_checks_types_first pid ref card (w : world G) :
  isinstance pid unicode
    && (isinstance ref unicode || isinstance ref NoneType)
    && isinstance card unicode = false →
  associate pid ref card w = (inl TypeError, w).
Proof.
  intros Hty. destruct pid, ref, card; cbn in Hty; try discriminate Hty.
  all: reflexivity.
Qed.

(** A structured error of the card-attach save whose message is not a
    unicode is not recorded: the type check of the message raises
    [TypeError] in its place, and [last_bill_result] is not written. *)
Theorem associate_rejects_untyped_message d g pid ref card :
  let '(res, w') := associate pid ref card (World d g []) in
  let t := trace w' in
  ∀ m, outcome_of is_card_attach t = Some (Some (HTTPError m)) →
    isinstance m unicode = false →
    res = inl TypeError ∧ count is_bill_result_write t = 0%nat ∧
    ∀ k, column last_bill_result (db w') k = column last_bill_result d k.
Proof.
  unfold associate.
  destruct pid, ref, card; run; try (intros; discriminate); answers.
  all: intros m' Hm Hty; simplify_eq/=; try done.
  all: repeat split; try done.
  all: intros k; rewrite column_update_where; cbn; apply column_if.
Qed.

(** The save that stores the participant id in the account's metadata is
    not guarded: any exception it raises, a structured gateway error
    included, leaves [associate].  The account reference has been written by
    then and stays; the card is not attached and [last_bill_result] is not
    written. *)
Theorem associate_stops_when_meta_save_fails d g pid ref card :
  let '(res, w') := associate pid ref card (World d g []) in
  let t := trace w' in
  ∀ e, outcome_of is_meta_save t = Some (Some e) →
    res = inl e ∧ count is_card_attach t = 0%nat ∧
    count is_bill_result_write t = 0%nat ∧
    ∃ u, List.find is_account_ref_write t =
           Some (Execute (CUSTOMER (VUnicode u) pid), None) ∧
         db w' = db_execute (CUSTOMER (VUnicode u) pid) d.
Proof.
  unfold associate.
  destruct pid, ref, card; run; try (intros; discriminate); answers.
  all: intros e' He; simplify_eq/=; try done.
  all: repeat split; try done; by eexists.
Qed.

End AssociateEdges.

Lemma associate_checks_types_first_witness :
  associate (VInt 7) VNone Scenario.token (Wallet.start Scenario.fresh) =
    (inl TypeError, Wallet.start Scenario.fresh) ∧
  associate Scenario.alice (VInt 7) Scenario.token (Wallet.start Scenario.fresh) =
    (inl TypeError, Wallet.start Scenario.fresh) ∧
  associate Scenario.alice VNone VNone (Wallet.start Scenario.fresh) =
    (inl TypeError, Wallet.start Scenario.fresh).
Proof.
  split; [|split].
  - apply (associate_checks_types_first (VInt 7) VNone Scenario.token). reflexivity.
  - apply (associate_checks_types_first Scenario.alice (VInt 7) Scenario.token).
    reflexivity.
  - apply (associate_checks_types_first Scenario.alice VNone VNone). reflexivity.
Defined.

(** The card-attach save is answered with a structured error that carries
    no message. *)
Lemma associate_rejects_untyped_message_witness :
  let '(res, w') :=
    associate Scenario.alice VNone Scenario.token
      (Wallet.start (Mem.with_faults [None; None; None; Some (HTTPError VNone)]
                       Scenario.fresh)) in
  outcome_of is_card_attach (trace w') = Some (Some (HTTPError VNone)) ∧
  res = inl TypeError ∧
  column last_bill_result (db w') "alice" = Some None.
Proof.
  pose proof (associate_rejects_untyped_message Scenario.table
                (Mem.with_faults [None; None; None; Some (HTTPError VNone)]
                   Scenario.fresh)
                Scenario.alice VNone Scenario.token) as H.
  unfold Wallet.start.
  destruct (associate _ _ _ _) as [res w'] eqn:E. evaluate E.
  split; [reflexivity|].
  destruct (H VNone eq_refl eq_refl) as (Hr & _ & Hcol).
  split; [exact Hr|]. rewrite Hcol. vm_compute. reflexivity.
Defined.

(** The metadata save is answered with a structured error. *)
Lemma associate_stops_when_meta_save_fails_witness :
  let '(res, w') :=
    associate Scenario.alice VNone Scenario.token
      (Wallet.start
         (Mem.with_faults [None; None; Some (HTTPError (VUnicode "busy"))]
            Scenario.fresh)) in
  outcome_of is_meta_save (trace w') =
    Some (Some (HTTPError (VUnicode "busy"))) ∧
  res = inl (HTTPError (VUnicode "busy")) ∧
  db w' !! "alice" = Some {| balanced_account_uri := Some "/v1/accounts/0";
                            last_bill_result := None |}.
Proof.
  pose proof (associate_stops_when_meta_save_fails Scenario.table
                (Mem.with_faults [None; None; Some (HTTPError (VUnicode "busy"))]
                   Scenario.fresh)
                Scenario.alice VNone Scenario.token) as H.
  unfold Wallet.start.
  destruct (associate _ _ _ _) as [res w'] eqn:E. evaluate E.
  split; [reflexivity|].
  destruct (H _ eq_refl) as (Hr & _ & _ & u & Hfind & Hdb).
  split; [exact Hr|].
  vm_compute in Hfind. injection Hfind as <-.
  rewrite Hdb. vm_compute. reflexivity.
Defined.

(** ** Rows *)

Section Rows.
Context {G : Type} `{!Gateway G}.
Implicit Types (d : gmap string participant) (g : G).
Implicit Types (pid ref card : pyval).

(** Neither [associate] nor [clear] adds or removes a row, and neither
    changes a row other than the participant's own. *)
Theorem updates_touch_one_row d g pid ref card :
  let d1 := db (associate pid ref card (World d g [])).2 in
  let d2 := db (clear pid ref (World d g [])).2 in
  (dom d1 = dom d ∧ ∀ k, pid ≠ VUnicode k → d1 !! k = d !! k) ∧
  (dom d2 = dom d ∧ ∀ k, pid ≠ VUnicode k → d2 !! k = d !! k).
Proof.
  split.
  - unfold associate.
    destruct pid as [| | |p|], ref, card; run; try done; answers.
    all: rewrite ?dom_update_where; split; [done|]; intros k Hk.
    all: rewrite ?lookup_update_where_ne; try done; cbn; congruence.
  - rewrite clear_unfold.
    destruct pid as [| | |p|], ref; run; try done.
    answer; [done|]. answer; [done|].
    match goal with
    | |- context [for_each ?cs invalidate ?w] =>
        pose proof (invalidate_loop cs w) as H;
        destruct (for_each cs invalidate w) as [[e|[]] w2]
    end; cbn in *.
    all: destruct H as (-> & _); rewrite ?dom_update_where.
    all: split; [done|]; intros k Hk.
    all: rewrite ?lookup_update_where_ne; try done; cbn; congruence.
Qed.
End Rows.

(** ** clear: type check, failing saves *)

Section ClearEdges.
Context {G : Type} `{!Gateway G}.
Implicit Types (d : gmap string participant) (g : G) (pid ref : pyval).

(** An argument that is not a unicode, [None] included, makes [clear]
    raise [TypeError] before anything is called or written. *)
Theorem clear_checks_types_first pid ref (w : world G) :
  isinstance pid unicode && isinstance ref unicode = false →
  clear pid ref w = (inl TypeError, w).
Proof.
  intros Hty. destruct pid, ref; cbn in Hty; try discriminate Hty.
  all: reflexivity.
Qed.

(** A loop that raises stopped at a valid card whose save raised, having
    saved the valid cards before it. *)
Lemma invalidate_loop_stops cs : ∀ (w w' : world G) e,
  for_each cs invalidate w = (inl e, w') →
  ∃ cs1 c cs2, cs = cs1 ++ c :: cs2 ∧ is_valid c = true ∧
    trace w' = trace w ++ invalidations cs1
                 ++ [(CardSave (set_is_valid false c), Some e)].
Proof.
  induction cs as [|c cs IH]; intros w w' e Hrun; [done|].
  cbn [for_each] in Hrun. unfold mbind, M_bind, invalidate at 1 in Hrun.
  destruct (is_valid c) eqn:Hv.
  - unfold mbind, M_bind, call, mret, M_ret in Hrun.
    destruct (gw_card_save (set_is_valid false c) (gw w)) as [[e'|c'] g1].
    + cbn in Hrun. injection Hrun as <- <-. by exists [], c, cs.
    + cbn in Hrun. apply IH in Hrun as (cs1 & c1 & cs2 & -> & Hc1 & Ht).
      exists (c :: cs1), c1, cs2. repeat split; [done|].
      rewrite Ht. unfold invalidations. cbn. rewrite Hv. cbn.
      by rewrite <- app_assoc.
  - cbn in Hrun. apply IH in Hrun as (cs1 & c1 & cs2 & -> & Hc1 & Ht).
    exists (c :: cs1), c1, cs2. repeat split; [done|].
    rewrite Ht. unfold invalidations. cbn. by rewrite Hv.
Qed.

(** [clear] is not all-or-nothing.  When the save of a card raises, the
    exception leaves [clear]: the valid cards listed before that card have
    been saved as invalid, no card after it is looked at, and the
    participant's row is not reset. *)
Theorem clear_stops_at_failing_save d g p u found g1 cs g2 :
  gw_find (VUnicode u) g = (inr found, g1) →
  gw_cards (load found) g1 = (inr cs, g2) →
  let '(res, w') := clear (VUnicode p) (VUnicode u) (World d g []) in
  ∀ e, res = inl e →
    ∃ cs1 c cs2, cs = cs1 ++ c :: cs2 ∧ is_valid c = true ∧
      trace w' = [(Find (VUnicode u), None); (Cards (load found), None)]
                   ++ invalidations cs1
                   ++ [(CardSave (set_is_valid false c), Some e)] ∧
      db w' = d.
Proof.
  intros Hfind Hcards. rewrite clear_unfold. run. rewrite Hfind. sim.
  rewrite Hcards. sim.
  match goal with
  | |- context [for_each ?cs invalidate ?w] =>
      pose proof (invalidate_loop cs w) as Hdb;
      pose proof (invalidate_loop_stops cs w) as Hstop;
      destruct (for_each cs invalidate w) as [[e|[]] w2]
  end; cbn in *; [|done].
  intros e' [= <-]. destruct Hdb as (Hdb & _).
  destruct (Hstop w2 e eq_refl) as (cs1 & c & cs2 & -> & Hc & Ht).
  exists cs1, c, cs2. by rewrite Ht, Hdb.
Qed.
End ClearEdges.

Lemma clear_checks_types_first_witness :
  clear Scenario.alice VNone (Wallet.start Wallet.two_cards) =
    (inl TypeError, Wallet.start Wallet.two_cards) ∧
  clear (VInt 7) (VUnicode "/v1/accounts/7") (Wallet.start Wallet.two_cards) =
    (inl TypeError, Wallet.start Wallet.two_cards).
Proof.
  split.
  - apply (clear_checks_types_first Scenario.alice VNone). reflexivity.
  - apply (clear_checks_types_first (VInt 7) (VUnicode "/v1/accounts/7")).
    reflexivity.
Defined.

(** The second card save dies on the wire: the first card stays invalid at
    the gateway, the second stays valid, the row keeps its reference. *)
Lemma clear_stops_at_failing_save_witness :
  let g := Mem.with_faults [None; None; None; Some (TransportError "timeout")]
             Wallet.two_cards in
  let billed := {[ "alice" := {| balanced_account_uri := Some "/v1/accounts/7";
                                 last_bill_result := Some "" |} ]} in
  let '(res, w') := clear Scenario.alice (VUnicode "/v1/accounts/7")
                      (World billed g []) in
  res = inl (TransportError "timeout") ∧
  map (λ oc, is_valid oc.2) (Mem.cards (gw w')) = [false; true] ∧
  count is_card_save (trace w') = 2%nat ∧
  db w' = billed.
Proof.
  pose proof (clear_stops_at_failing_save
    {[ "alice" := {| balanced_account_uri := Some "/v1/accounts/7";
                     last_bill_result := Some "" |} ]}
    (Mem.with_faults [None; None; None; Some (TransportError "timeout")]
       Wallet.two_cards)
    "alice" "/v1/accounts/7" _ _ [Wallet.amex; Scenario.visa] _
    eq_refl eq_refl) as H.
  cbv zeta. unfold Scenario.alice.
  destruct (clear _ _ _) as [res w'] eqn:E.
  destruct (H (TransportError "timeout")) as (cs1 & c & cs2 & Hcs & Hc & Ht & Hdb).
  { apply (f_equal fst) in E. vm_compute in E. by subst res. }
  split; [apply (f_equal fst) in E; vm_compute in E; by subst res|].
  split; [apply (f_equal snd) in E; cbn in E; subst w'; vm_compute; reflexivity|].
  split; [|exact Hdb].
  apply (f_equal snd) in E. cbn in E. subst w'. vm_compute. reflexivity.
Defined.

(** ** clear, twice, on the in-memory gateway *)

(** Every card of account [u] is invalid. *)
Definition settled (u : string) (g : Mem.t) : Prop :=
  ∀ oc, In oc (Mem.cards g) → Mem.owned_by u oc = true → is_valid oc.2 = false.

(** Every card of account [u] that is still valid is among [rest], the
    cards the loop has yet to visit. *)
Definition pending (u : string) (g : Mem.t) (rest : list card) : Prop :=
  ∀ oc, In oc (Mem.cards g) → Mem.owned_by u oc = true → is_valid oc.2 = true →
    ∃ c, In c rest ∧ is_valid c = true ∧ card_id c = card_id oc.2.

Lemma scripted_inr {A} (op : Mem.t → result A * Mem.t) g x g' :
  Mem.scripted op g = (inr x, g') →
  ∃ g0, op g0 = (inr x, g') ∧ Mem.accounts g0 = Mem.accounts g ∧
        Mem.cards g0 = Mem.cards g.
Proof.
  unfold Mem.scripted. destruct (Mem.faults g) as [|[e|] rest]; intros E.
  - by exists g.
  - done.
  - by exists (Mem.with_faults rest g).
Qed.

Lemma scripted_quiet {A} (op : Mem.t → result A * Mem.t) g :
  Mem.faults g = [] → Mem.scripted op g = op g.
Proof. unfold Mem.scripted. by intros ->. Qed.

Lemma find_inr u g r g' :
  Mem.find u g = (inr r, g') →
  g' = g ∧ u = VUnicode (res_uri r) ∧
  List.find (Mem.has_uri (res_uri r)) (Mem.accounts g) = Some r.
Proof.
  unfold Mem.find. destruct u as [| | |s|]; try done.
  destruct (List.find _ _) as [r'|] eqn:Hf; [|done].
  intros [= -> ->]. apply List.find_some in Hf as Hr. destruct Hr as [_ Hr].
  apply String.eqb_eq in Hr. by subst s.
Qed.

Lemma card_save_inr c g c' g' :
  Mem.card_save c g = (inr c', g') →
  g' = Mem.with_cards (map (Mem.replace_card c) (Mem.cards g)) g.
Proof.
  unfold Mem.card_save. destruct (existsb _ _); [|done]. by intros [= _ <-].
Qed.

Lemma pending_listing u g :
  pending u g (map snd (List.filter (Mem.owned_by u) (Mem.cards g))).
Proof.
  intros oc Hin Hown Hv. exists oc.2. repeat split; [|done].
  apply List.in_map, List.filter_In. by split.
Qed.

Lemma pending_nil u g : pending u g [] → settled u g.
Proof.
  intros Hp oc Hin Hown. destruct (is_valid oc.2) eqn:Hv; [|done].
  by destruct (Hp oc Hin Hown Hv) as (c & [] & _).
Qed.

(** On the in-memory gateway a completed loop leaves every card of the
    account invalid, and the accounts and the table as they were. *)
Lemma invalidate_settles u cs : ∀ (w w' : world Mem.t),
  for_each cs invalidate w = (inr tt, w') →
  pending u (gw w) cs →
  settled u (gw w') ∧ Mem.accounts (gw w') = Mem.accounts (gw w) ∧ db w' = db w.
Proof.
  induction cs as [|c cs IH]; intros w w' Hrun Hp.
  - cbn in Hrun. injection Hrun as <-. split; [by apply pending_nil|done].
  - cbn [for_each] in Hrun. unfold mbind, M_bind, invalidate at 1 in Hrun.
    destruct (is_valid c) eqn:Hv.
    + unfold mbind, M_bind, call, mret, M_ret in Hrun. cbn in Hrun.
      destruct (Mem.scripted _ (gw w)) as [[e|c'] g1] eqn:Hs; [done|].
      apply scripted_inr in Hs as (g0 & Hs & Hacc & Hcards).
      apply card_save_inr in Hs. cbn in Hrun.
      apply IH in Hrun; cbn in *.
      * destruct Hrun as (Hset & Ha & Hd). split; [done|]. split; [|done].
        rewrite Ha, Hs. cbn. done.
      * subst g1. cbn. rewrite Hcards. intros oc Hin Hown Hval.
        apply List.in_map_iff in Hin as (oc0 & <- & Hin).
        unfold Mem.replace_card in *.
        destruct (Mem.same_card _ oc0) eqn:Hsame; [done|].
        destruct (Hp oc0 Hin Hown Hval) as (c1 & [<-|Hc1] & Hv1 & Hid).
        -- unfold Mem.same_card in Hsame. cbn in Hsame. rewrite Hid in Hsame.
           by rewrite String.eqb_refl in Hsame.
        -- by exists c1.
    + cbn in Hrun. apply IH in Hrun; [done|].
      intros oc Hin Hown Hval.
      destruct (Hp oc Hin Hown Hval) as (c1 & [<-|Hc1] & Hv1 & Hid).
      * congruence.
      * by exists c1.
Qed.

Lemma invalidate_nothing {G} `{!Gateway G} cs (w : world G) :
  Forall (λ c, is_valid c = false) cs → for_each cs invalidate w = (inr tt, w).
Proof.
  induction 1 as [|c cs Hc _ IH]; [done|].
  cbn [for_each]. unfold mbind, M_bind, invalidate at 1. by rewrite Hc.
Qed.

Lemma settled_listing u g :
  settled u g →
  Forall (λ c, is_valid c = false)
         (map snd (List.filter (Mem.owned_by u) (Mem.cards g))).
Proof.
  intros Hs. apply List.Forall_forall. intros c Hc.
  apply List.in_map_iff in Hc as (oc & <- & Hoc).
  apply List.filter_In in Hoc as [Hin Hown]. by apply Hs.
Qed.

Lemma reset_twice id (d : gmap string participant) :
  update_where id reset (update_where id reset d) = update_where id reset d.
Proof.
  unfold update_where. destruct (sql_text id) as [k|]; [|done].
  apply map_eq. intros i. destruct (decide (i = k)) as [->|Hne].
  - rewrite !lookup_alter_eq. by destruct (d !! k).
  - by rewrite !lookup_alter_ne.
Qed.

Lemma settled_cards u g g' :
  Mem.cards g' = Mem.cards g → settled u g → settled u g'.
Proof. unfold settled. by intros ->. Qed.

(** A second [clear] after one that completed finds no valid card left: it
    saves no card and leaves the table as the first one left it, whatever
    the gateway answers; when no fault is scripted, it completes after the
    lookup, the listing and the reset, and leaves the gateway as it was. *)
Theorem clear_twice_saves_nothing d (g : Mem.t) pid ref w1 :
  clear pid ref (World d g []) = (inr tt, w1) →
  let '(res, w2) := clear pid ref (World (db w1) (gw w1) []) in
  db w2 = db w1 ∧ count is_card_save (trace w2) = 0%nat ∧
  (Mem.faults (gw w1) = [] →
     res = inr tt ∧ gw w2 = gw w1 ∧
     ∃ a, trace w2 =
            [(Find ref, None); (Cards a, None); (Execute (CLEAR pid), None)]).
Proof.
  intros H1. rewrite clear_unfold in H1 |- *.
  destruct pid as [| | |p|], ref as [| | |u|]; try done.
  unfold mbind, M_bind, call, execute in H1. cbn in H1.
  destruct (Mem.scripted (Mem.find (VUnicode u)) g) as [[e|r] g1] eqn:Hf;
    [done|].
  cbn in H1.
  destruct (Mem.scripted (Mem.list_cards (load r)) g1) as [[e|cs] g2] eqn:Hl;
    [done|].
  cbn in H1.
  destruct (for_each cs invalidate _) as [[e|[]] w] eqn:Hloop; [done|].
  injection H1 as <-.
  apply scripted_inr in Hf as (g0 & Hf & Hacc0 & _).
  apply find_inr in Hf as (-> & [= ->] & Hr).
  apply scripted_inr in Hl as (g0' & Hl & Hacc1 & _).
  injection Hl as <- <-.
  apply (invalidate_settles (res_uri r)) in Hloop as (Hset & Hacc & Hd);
    [|apply pending_listing].
  cbn in Hset, Hacc, Hd.
  run.
  destruct (Mem.scripted (Mem.find (VUnicode (res_uri r))) (gw w))
    as [[e|r'] g3] eqn:Hf2; sim.
  { split; [done|]. split; [done|]. intros Hq. exfalso.
    rewrite scripted_quiet in Hf2 by done. unfold Mem.find in Hf2.
    by rewrite Hacc, Hacc1, Hr in Hf2. }
  destruct (Mem.scripted (Mem.list_cards (load r')) g3)
    as [[e|cs'] g4] eqn:Hl2; sim.
  { split; [done|]. split; [done|]. intros Hq. exfalso.
    rewrite scripted_quiet in Hf2 by done.
    apply find_inr in Hf2 as (-> & _). by rewrite scripted_quiet in Hl2. }
  pose proof Hf2 as Hf2'. pose proof Hl2 as Hl2'.
  apply scripted_inr in Hf2' as (g5 & Hf2' & _ & Hc5).
  apply find_inr in Hf2' as (-> & [= Hu] & _).
  apply scripted_inr in Hl2' as (g6 & Hl2' & _ & Hc6).
  injection Hl2' as <- ->.
  rewrite invalidate_nothing.
  2:{ cbn. rewrite <- Hu. apply settled_listing.
      apply (settled_cards _ (gw w)); [congruence|done]. }
  sim. split; [by rewrite Hd, reset_twice|]. split; [done|].
  intros Hq. split; [done|].
  rewrite scripted_quiet in Hf2 by done. apply find_inr in Hf2 as (-> & _).
  rewrite scripted_quiet in Hl2 by done. injection Hl2 as _ <-.
  split; [done|]. by eexists.
Qed.

Module Revoked.
Definition billed : gmap string participant :=
  {[ "alice" := {| balanced_account_uri := Some "/v1/accounts/7";
                   last_bill_result := Some "" |} ]}.

(** The world a first [clear] leaves behind. *)
Definition once : world Mem.t :=
  (clear Scenario.alice (VUnicode "/v1/accounts/7")
     (World billed Wallet.two_cards [])).2.
End Revoked.

Lemma clear_twice_saves_nothing_witness :
  count is_card_save (trace Revoked.once) = 2%nat ∧
  let '(res, w2) := clear Scenario.alice (VUnicode "/v1/accounts/7")
                      (World (db Revoked.once) (gw Revoked.once) []) in
  res = inr tt ∧ count is_card_save (trace w2) = 0%nat ∧
  db w2 = db Revoked.once ∧ gw w2 = gw Revoked.once ∧
  db w2 !! "alice" = Some Scenario.never_billed.
Proof.
  pose proof (clear_twice_saves_nothing Revoked.billed Wallet.two_cards
                Scenario.alice (VUnicode "/v1/accounts/7") Revoked.once) as H.
  split; [vm_compute; reflexivity|].
  destruct (clear Scenario.alice _ (World (db Revoked.once) _ [])) as [res w2].
  destruct H as (Hdb & Hn & Hq); [vm_compute; reflexivity|].
  destruct Hq as (Hr & Hg & _); [vm_compute; reflexivity|].
  split; [exact Hr|]. split; [exact Hn|]. split; [exact Hdb|].
  split; [exact Hg|]. rewrite Hdb. vm_compute. reflexivity.
Defined.

(** ** associate never drops an account reference *)

Section AssociateKeeps.
Context {G : Type} `{!Gateway G}.
Implicit Types (d : gmap string participant) (g : G).
Implicit Types (pid ref card : pyval).

(** However a call of [associate] ends (returned, declined, raised), a
    row that held an account reference holds one afterwards; and a call
    that was given a reference leaves the column as it was. *)
Theorem associate_never_nulls_account_ref d g pid ref card :
  let '(res, w') := associate pid ref card (World d g []) in
  (is_none ref = false →
     ∀ k, column balanced_account_uri (db w') k =
          column balanced_account_uri d k) ∧
  (∀ k u, column balanced_account_uri d k = Some (Some u) →
     ∃ u', column balanced_account_uri (db w') k = Some (Some u')).
Proof.
  unfold associate.
  destruct pid as [| | |p|], ref, card; run; answers.
  all: split; [intros Hn; try discriminate; intros k|intros k u].
  all: rewrite ?column_update_where; cbn.
  all: try (by repeat case_decide).
  all: try case_decide; eauto.
  all: unfold column; destruct (d !! k); naive_solver.
Qed.
End AssociateKeeps.
